(** * MedRAX tutorial script ([tutorial_poc.py]): a verified model

    The script prints a fixed sequence of banners and pre-formatted text
    blocks to standard output and exits.  This development embeds the
    script as it is written: Python [str] values are byte strings (the
    UTF-8 encoding of the source literals), [print] is the only effect,
    and every function of the script is a computation in a small monad
    that threads the standard output stream and propagates exceptions. *)

From Stdlib Require Import String Ascii List ZArith Lia Bool Arith.
Import ListNotations.
Local Open Scope string_scope.

(** ** Python string primitives used by the script *)

Module Py.

(** The line feed written by [print] and denoted by the escape
    sequence backslash-n in the source. *)
Definition nl : string := String (ascii_of_nat 10) EmptyString.

(** The double quote and the backslash, which occur inside the printed
    text blocks. *)
Definition dq : string := String (ascii_of_nat 34) EmptyString.
Definition bs : string := String (ascii_of_nat 92) EmptyString.

(** [s * n] on strings. *)
Fixpoint str_mul (s : string) (n : nat) : string :=
  match n with
  | O => EmptyString
  | S n' => s ++ str_mul s n'
  end.

(** [s.center(width, fillchar)], as CPython pads: when padding is
    needed, [left = marg / 2 + (marg & width & 1)] fill characters go to
    the left and the remaining ones to the right.  The script centers
    ASCII text only, so the length in bytes is the length in code
    points. *)
Definition center (s : string) (width : nat) (fillchar : ascii) : string :=
  let len := String.length s in
  if Nat.leb width len then s
  else
    let marg := width - len in
    let left := marg / 2 + Nat.land (Nat.land marg width) 1 in
    let fill := String fillchar EmptyString in
    str_mul fill left ++ s ++ str_mul fill (marg - left).

(** The concatenation of a list of strings. *)
Fixpoint cat (ls : list string) : string :=
  match ls with
  | [] => EmptyString
  | l :: ls' => l ++ cat ls'
  end.

(** A triple-quoted literal that opens with a line break and holds the
    given lines, each one ended by a line break. *)
Definition heredoc (ls : list string) : string :=
  nl ++ cat (map (fun l => l ++ nl) ls).

(** The number of line feeds of a string. *)
Fixpoint count_nl (s : string) : nat :=
  match s with
  | EmptyString => 0
  | String c s' => (if Ascii.eqb c (ascii_of_nat 10) then 1 else 0) + count_nl s'
  end.

(** The lines of a text: the pieces between line feeds.  A text that
    ends with a line feed has no extra empty last line. *)
Fixpoint lines_from (cur : string) (s : string) : list string :=
  match s with
  | EmptyString =>
      match cur with EmptyString => [] | _ => [cur] end
  | String c s' =>
      if Ascii.eqb c (ascii_of_nat 10)
      then cur :: lines_from EmptyString s'
      else lines_from (cur ++ String c EmptyString) s'
  end.

Definition lines (s : string) : list string := lines_from EmptyString s.

(** [pat in s]. *)
Fixpoint contains (pat s : string) : bool :=
  String.prefix pat s ||
  match s with
  | EmptyString => false
  | String _ s' => contains pat s'
  end.

(** [s.find(pat)], with [None] for the result -1. *)
Fixpoint find (pat s : string) : option nat :=
  if String.prefix pat s then Some 0
  else match s with
       | EmptyString => None
       | String _ s' => option_map S (find pat s')
       end.

(** [s.count(pat)] counts occurrences that do not overlap; the patterns
    counted below are not empty. *)
Fixpoint count_from (fuel : nat) (pat s : string) : nat :=
  match fuel with
  | O => 0
  | S fuel' =>
      match find pat s with
      | None => 0
      | Some i =>
          S (count_from fuel' pat
               (String.substring (i + String.length pat)
                  (String.length s - (i + String.length pat)) s))
      end
  end.

Definition count (pat s : string) : nat :=
  count_from (S (String.length s)) pat s.

(** A blank line: it holds nothing but ASCII white space (space, tab,
    line feed, vertical tab, form feed, carriage return). *)
Fixpoint is_blank (l : string) : bool :=
  match l with
  | EmptyString => true
  | String c l' =>
      (Ascii.eqb c " " || Ascii.eqb c (ascii_of_nat 9)
       || Ascii.eqb c (ascii_of_nat 13) || Ascii.eqb c (ascii_of_nat 10)
       || Ascii.eqb c (ascii_of_nat 11) || Ascii.eqb c (ascii_of_nat 12))
      && is_blank l'
  end.

(** The string holds a line feed. *)
Fixpoint has_newline (s : string) : bool :=
  match s with
  | EmptyString => false
  | String c s' => Ascii.eqb c (ascii_of_nat 10) || has_newline s'
  end.

End Py.

Import Py.

(** ** Standard output and exceptions

    The stream is the object [sys.stdout] that [print] hands its text
    to.  It remembers the text it was handed so far and how many [print]
    calls were made.  Whether the k-th [print] call returns or raises is
    a property of the environment ([writable], below); a call that
    raises is said to be refused.  The exception stands for
    [BrokenPipeError] and for every other error that [print] passes on.
    The script has no [try] statement, so an exception leaves every
    function it reaches: this is what [bind] does.

    What lies behind the stream object is not part of the script and is
    not modelled: the interpreter may hold the text in a buffer, so that
    a closed pipe or a full device makes no [print] call raise, and it
    flushes the buffer when the process ends.  A refused call leaves
    none of its text here; the statements about refused calls below only
    say that the text left is a part of the complete text that starts at
    its beginning. *)

Record stdout : Type := { attempts : nat; text : string }.

Definition fresh : stdout := {| attempts := 0; text := EmptyString |}.

Inductive exn : Type :=
| BrokenPipeError
| SystemExit (code : Z).

Inductive result (A : Type) : Type :=
| Ok (a : A)
| Raise (e : exn).

Arguments Ok {A} a.
Arguments Raise {A} e.

Definition io (A : Type) : Type := stdout -> result A * stdout.

Definition ret {A} (a : A) : io A := fun st => (Ok a, st).

Definition bind {A B} (m : io A) (k : A -> io B) : io B :=
  fun st =>
    match m st with
    | (Ok a, st') => k a st'
    | (Raise e, st') => (Raise e, st')
    end.

Declare Scope io_scope.
Delimit Scope io_scope with io.
Bind Scope io_scope with io.

Notation "x <- m ;; k" := (bind m (fun x => k))
  (at level 61, m at next level, right associativity) : io_scope.
Notation "m ;; k" := (bind m (fun _ => k))
  (at level 61, right associativity) : io_scope.

(** The value [None] that a Python function without a [return] yields. *)
Definition None_ : unit := tt.

Section Script.

(** [writable k] tells whether [print] call number [k] returns (the
    stream accepts it) or raises (the stream refuses it). *)
Variable writable : nat -> bool.

(** [print(s)]: hands [s] and the line feed that ends it to the stream,
    or raises. *)
Definition print (s : string) : io unit :=
  fun st =>
    if writable (attempts st)
    then (Ok None_, {| attempts := S (attempts st); text := text st ++ s ++ nl |})
    else (Raise BrokenPipeError, {| attempts := S (attempts st); text := text st |}).

(** [sys.exit(code)]. *)
Definition sys_exit (code : Z) : io unit :=
  fun st => (Raise (SystemExit code), st).

Local Open Scope io_scope.

(** [print_section(title)] *)
Definition print_section (title : string) : io unit :=
  print (nl ++ str_mul "=" 70) ;;
  print ("  " ++ title) ;;
  print (str_mul "=" 70 ++ nl).

(** [demo_supported_tools()]: the local [tools] and the two calls. *)
Definition tools : string := heredoc
  [ "MedRAX provides the following specialized tools for chest X-ray analysis:";
    "";
    "1. CHEST_X_RAY_CLASSIFIER";
    "   - Pneumonia detection";
    "   - Tuberculosis screening";
    "   - Lung opacity classification";
    "";
    "2. CHEST_X_RAY_SEGMENTATION";
    "   - Lung segmentation";
    "   - Heart segmentation";
    "   - Thoracic structure delineation";
    "";
    "3. LLAVA_MED_TOOL";
    "   - Medical image understanding";
    "   - Multi-modal analysis";
    "   - Clinical report generation";
    "";
    "4. X_RAY_VQA_TOOL";
    "   - Visual question answering";
    "   - Finding identification";
    "   - Abnormality detection";
    "";
    "5. CHEST_X_RAY_REPORT_GENERATOR";
    "   - Automated report writing";
    "   - Clinical terminology";
    "   - Structure report formatting";
    "";
    "6. X_RAY_PHRASE_GROUNDING";
    "   - Finding localization";
    "   - Anatomical labeling";
    "   --abnormality mapping";
    "";
    "7. IMAGE_VISUALIZER";
    "   - Image display";
    "   - Annotation visualization";
    "   - Comparison views";
    "";
    "8. DICOM_PROCESSOR";
    "   - DICOM file reading";
    "   - Metadata extraction";
    "   - Series processing" ].

Definition demo_supported_tools : io unit :=
  print_section "Supported Medical Analysis Tools" ;;
  print tools.

(** [demo_docker_usage()]: the local [docker_commands] and the two calls. *)
Definition docker_commands : string := heredoc
  [ "# Build the Docker image";
    "cd MedRAX";
    "docker build -t medrax:latest .";
    "";
    "# Start container with model weights";
    "docker run -d " ++ bs;
    "    --name medrax " ++ bs;
    "    -p 11180:8585 " ++ bs;
    "    -v $(pwd)/temp:/medrax/temp:rw " ++ bs;
    "    -v $(pwd)/logs:/medrax/logs:rw " ++ bs;
    "    -v /path/to/model-weights:/model-weights:ro " ++ bs;
    "    -e MODEL=gpt-4o " ++ bs;
    "    -e DEVICE=cuda " ++ bs;
    "    --gpus all " ++ bs;
    "    medrax:latest";
    "";
    "# View logs";
    "docker logs -f medrax";
    "";
    "# Access the Gradio web UI";
    "open http://localhost:11180";
    "";
    "# Stop the container";
    "docker stop medrax" ].

Definition demo_docker_usage : io unit :=
  print_section "Docker Usage Examples" ;;
  print docker_commands.

(** [demo_configuration()]: the local [config_info] and the two calls. *)
Definition config_info : string := heredoc
  [ "Environment Variables:";
    "- MODEL: LLM model to use (default: gpt-4o)";
    "- DEVICE: Device for model inference (default: cuda)";
    "- TEMP_DIR: Temporary directory for processing (default: temp)";
    "";
    "Required Mounts:";
    "- /model-weights: Directory containing model weights";
    "- /medrax/temp: Temporary files directory";
    "- /medrax/logs: Log files directory";
    "";
    "Optional Environment Variables:";
    "- OPENAI_API_KEY: Your OpenAI API key";
    "- OPENAI_BASE_URL: Custom OpenAI base URL" ].

Definition demo_configuration : io unit :=
  print_section "Configuration Options" ;;
  print config_info.

(** [demo_workflow()]: the local [workflow] and the two calls. *)
Definition workflow : string := heredoc
  [ "1. PREPARATION";
    "   ├── Ensure model weights are available at /model-weights";
    "   ├── Prepare DICOM or image files";
    "   └── Configure API keys if needed";
    "";
    "2. IMAGE LOADING";
    "   ├── Upload X-ray image (JPG/PNG/DICOM)";
    "   └── System extracts image data";
    "";
    "3. ANALYSIS PIPELINE";
    "   ├── Selection of tools based on task:";
    "   │   ├── Classification: Pneumonia/TB detection";
    "   │   ├── Segmentation: Lung/Heart boundaries";
    "   │   ├── VQA: Answer clinical questions";
    "   │   └── Report Generation: Full clinical report";
    "";
    "4. AI PROCESSING";
    "   ├── Model inference on image";
    "   └── Generation of analysis results";
    "";
    "5. OUTPUT";
    "   ├── Visual annotations";
    "   ├── Text reports";
    "   └── Exportable results" ].

Definition demo_workflow : io unit :=
  print_section "Medical Analysis Workflow" ;;
  print workflow.

(** [demo_python_api()]: the local [api_code] and the two calls. *)
Definition api_code : string := heredoc
  [ "import sys";
    "import os";
    "sys.path.insert(0, os.path.dirname(__file__))";
    "";
    "from interface import create_demo";
    "from medrax.agent import *";
    "from medrax.tools import *";
    "";
    "# Initialize the agent with specific tools";
    "selected_tools = [";
    "    " ++ dq ++ "ImageVisualizerTool" ++ dq ++ ",";
    "    " ++ dq ++ "DicomProcessorTool" ++ dq ++ ",";
    "    " ++ dq ++ "ChestXRayClassifierTool" ++ dq ++ ",";
    "]";
    "";
    "agent, tools_dict = initialize_agent(";
    "    " ++ dq ++ "medrax/docs/system_prompts.txt" ++ dq ++ ",";
    "    tools_to_use=selected_tools,";
    "    model_dir=" ++ dq ++ "/model-weights" ++ dq ++ ",";
    "    temp_dir=" ++ dq ++ "temp" ++ dq ++ ",";
    "    device=" ++ dq ++ "cuda" ++ dq ++ ",";
    "    model=" ++ dq ++ "gpt-4o" ++ dq ++ ",";
    ")";
    "";
    "# Create the Gradio interface";
    "demo = create_demo(agent, tools_dict)";
    "demo.launch(server_name=" ++ dq ++ "0.0.0.0" ++ dq ++ ", server_port=8585, share=True)" ].

Definition demo_python_api : io unit :=
  print_section "Python API Examples" ;;
  print api_code.

(** [demo_supported_models()]: the local [models] and the two calls. *)
Definition models : string := heredoc
  [ "LLM Models:";
    "- gpt-4o (recommended for best quality)";
    "- gpt-4o-mini (cost-effective)";
    "- claude-3-5-sonnet";
    "- gemini-1.5-pro";
    "";
    "Medical Imaging Models:";
    "- LlavaMed: Multi-modal medical vision-language model";
    "- ChestXRayClassifier: Pneumonia/TB detection";
    "- Segmentation models for lung/heart";
    "";
    "Text-to-Speech:";
    "- Edge-TTS: Free Microsoft voices";
    "- OpenAI TTS: High-quality voices";
    "- Local TTS models" ].

Definition demo_supported_models : io unit :=
  print_section "Available Models" ;;
  print models.

(** [demo_storage()]: the local [storage] and the two calls. *)
Definition storage : string := heredoc
  [ "Disk Space:";
    "- Models: 10GB-50GB depending on selected models";
    "- Temporary files: 5GB+";
    "- Logs: 1GB+";
    "";
    "GPU Requirements:";
    "- Minimum: 8GB VRAM";
    "- Recommended: 16GB+ VRAM";
    "- With CUDA support for faster inference";
    "";
    "RAM:";
    "- Minimum: 16GB";
    "- Recommended: 32GB+" ].

Definition demo_storage : io unit :=
  print_section "Storage and Requirements" ;;
  print storage.

(** [demo_quick_start()]: the local [quick_start] and the two calls. *)
Definition quick_start : string := heredoc
  [ "1. PREREQUISITES";
    "   Docker installed with CUDA support (optional)";
    "   Model weights downloaded";
    "   OpenAI API key (or local LLM)";
    "";
    "2. SETUP";
    "   git clone https://github.com/bowang-lab/MedRAX.git";
    "   cd MedRAX";
    "";
    "3. CONFIGURATION";
    "   # Download model weights to /path/to/model-weights";
    "   # Update OPENAI_API_KEY in environment";
    "";
    "4. BUILD AND RUN";
    "   docker build -t medrax:latest .";
    "   ./invoke.sh start";
    "";
    "5. FIRST USE";
    "   Open http://localhost:11180";
    "   Upload a chest X-ray image";
    "   Select analysis tools";
    "   Run analysis" ].

Definition demo_quick_start : io unit :=
  print_section "Quick Start Guide" ;;
  print quick_start.

(** The local [summary] of [main()]. *)
Definition summary : string := heredoc
  [ "1. SETUP";
    "   - Install Docker with CUDA (optional)";
    "   - Download model weights";
    "   - Get OpenAI API key";
    "";
    "2. DEPLOY";
    "   - Build: docker build -t medrax:latest .";
    "   - Run: ./invoke.sh start";
    "";
    "3. USE";
    "   - Access http://localhost:11180";
    "   - Upload chest X-ray images";
    "   - Run medical analysis";
    "";
    "For more information, visit: https://github.com/bowang-lab/MedRAX" ].

(** [main()] *)
Definition main : io Z :=
  print (nl ++ center "/MedRAX Tutorial POC" 70 "=") ;;
  print (center "  Medical Reasoning Agent for Chest X-ray" 70 " ") ;;
  print (str_mul "=" 70) ;;
  demo_supported_tools ;;
  demo_docker_usage ;;
  demo_configuration ;;
  demo_workflow ;;
  demo_python_api ;;
  demo_supported_models ;;
  demo_storage ;;
  demo_quick_start ;;
  print_section "Quick Start Summary" ;;
  print summary ;;
  ret 0%Z.

(** The guarded last statement of the file: [sys.exit(main())]. *)
Definition script : io unit :=
  code <- main ;;
  sys_exit code.

End Script.

(** ** The interpreter's exit status

    The status that the interpreter derives from the way the script
    ends: an uncaught [SystemExit] gives its code (the operating system
    keeps the low eight bits), any other uncaught exception gives 1, and
    a script that runs off its end gives 0.  This is the status of the
    process when the stream takes the text, as it is used below; the
    flush of standard output when the process ends, which can fail on a
    stream that took no text, is not modelled. *)

Definition exit_status (r : result unit) : Z :=
  match r with
  | Ok _ => 0%Z
  | Raise (SystemExit code) => Z.land code 255
  | Raise BrokenPipeError => 1%Z
  end.

(** ** The sections of the tutorial, as data

    Each [demo_*] function prints one titled block.  The record below
    names the two strings such a function holds; the list follows the
    order in which the functions are declared in the file, which is the
    order in which [main] calls them. *)

Record section : Type := { title : string; body : string }.

Definition registered_sections : list section :=
  [ {| title := "Supported Medical Analysis Tools"; body := tools |};
    {| title := "Docker Usage Examples"; body := docker_commands |};
    {| title := "Configuration Options"; body := config_info |};
    {| title := "Medical Analysis Workflow"; body := workflow |};
    {| title := "Python API Examples"; body := api_code |};
    {| title := "Available Models"; body := models |};
    {| title := "Storage and Requirements"; body := storage |};
    {| title := "Quick Start Guide"; body := quick_start |} ].

Definition summary_section : section :=
  {| title := "Quick Start Summary"; body := summary |}.

(** The functions that [main] calls between the title and the summary,
    in call order. *)
Definition demos (writable : nat -> bool) : list (io unit) :=
  [ demo_supported_tools writable; demo_docker_usage writable;
    demo_configuration writable; demo_workflow writable;
    demo_python_api writable; demo_supported_models writable;
    demo_storage writable; demo_quick_start writable ].

(** The separator line. *)
Definition separator : string := str_mul "=" 70.

(** The text of a banner, of a section and of the leading title. *)
Definition banner (t : string) : string :=
  nl ++ separator ++ nl ++ "  " ++ t ++ nl ++ separator ++ nl ++ nl.

Definition section_text (s : section) : string :=
  banner (title s) ++ body s ++ nl.

Definition title_banner : string :=
  nl ++ center "/MedRAX Tutorial POC" 70 "=" ++ nl
  ++ center "  Medical Reasoning Agent for Chest X-ray" 70 " " ++ nl
  ++ separator ++ nl.

(** The arguments of the [print] calls of a banner, of a section, and of
    a whole run, in call order. *)
Definition banner_writes (t : string) : list string :=
  [ nl ++ str_mul "=" 70; "  " ++ t; str_mul "=" 70 ++ nl ].

Definition section_writes (s : section) : list string :=
  (banner_writes (title s) ++ [body s])%list.

Definition title_writes : list string :=
  [ nl ++ center "/MedRAX Tutorial POC" 70 "=";
    center "  Medical Reasoning Agent for Chest X-ray" 70 " ";
    str_mul "=" 70 ].

Definition main_writes : list string :=
  (title_writes ++ flat_map section_writes registered_sections
   ++ section_writes summary_section)%list.

(** What a list of [print] calls leaves on the stream. *)
Fixpoint joined (cs : list string) : string :=
  match cs with
  | [] => EmptyString
  | c :: cs' => c ++ nl ++ joined cs'
  end.

(** The complete text of one run. *)
Definition tutorial_text : string := joined main_writes.

(** [print_all cs] performs the calls [print(c)] for the [c] of [cs]. *)
Fixpoint print_all (writable : nat -> bool) (cs : list string) : io unit :=
  match cs with
  | [] => ret None_
  | c :: cs' => (print writable c ;; print_all writable cs')%io
  end.

(** The first of the next [n] [print] calls, counted from call number
    [start], that the stream refuses. *)
Fixpoint first_refused (writable : nat -> bool) (start n : nat) : option nat :=
  match n with
  | O => None
  | S n' =>
      if writable start
      then option_map S (first_refused writable (S start) n')
      else Some 0
  end.

(** The stream accepts the next [n] [print] calls. *)
Definition accepts (writable : nat -> bool) (st : stdout) (n : nat) : Prop :=
  forall k, k < n -> writable (attempts st + k) = true.

(** The stream state after [n] more attempts that left [t]. *)
Definition advance (st : stdout) (n : nat) (t : string) : stdout :=
  {| attempts := attempts st + n; text := text st ++ t |}.

(** [emits writable m cs a]: whatever the stream does, [m] behaves as the
    calls [print(c)] for the [c] of [cs], and then yields [a]. *)
Definition emits {A} (writable : nat -> bool) (m : io A) (cs : list string)
    (a : A) : Prop :=
  forall st, m st = bind (print_all writable cs) (fun _ => ret a) st.

(** Two calls of [main()] in a row in one process, keeping both results. *)
Definition run_twice (writable : nat -> bool) : io (Z * Z) :=
  (first <- main writable ;;
   second <- main writable ;;
   ret (first, second))%io.

(** A stream that accepts every write, and one that accepts [n] writes
    and refuses the ones after them. *)
Definition always_writable : nat -> bool := fun _ => true.
Definition breaks_after (n : nat) : nat -> bool := fun k => Nat.ltb k n.

(** ** What the specification calls printSection and run *)

Module Spec.

(** printSection(section): the banner of the title, then the body. *)
Definition printSection (writable : nat -> bool) (s : section) : io unit :=
  (print_section writable (title s) ;; print writable (body s))%io.

(** run(): the top-level title, then printSection for each registered
    section in order, then the summary banner and body; the status 0. *)
Fixpoint for_each (writable : nat -> bool) (ss : list section) : io unit :=
  match ss with
  | [] => ret None_
  | s :: ss' => (printSection writable s ;; for_each writable ss')%io
  end.

Definition run (writable : nat -> bool) : io Z :=
  (print_all writable title_writes ;;
   for_each writable registered_sections ;;
   printSection writable summary_section ;;
   ret 0%Z)%io.

(** A banner in the output: a rule of 70 columns that starts with the
    fill character, a caption line, and a closing separator line. *)
Definition is_rule (l : string) : bool :=
  Nat.eqb (String.length l) 70 && String.prefix "=" l.

Fixpoint count_banners (ls : list string) : nat :=
  match ls with
  | [] => 0
  | top :: rest =>
      (match rest with
       | caption :: bottom :: _ =>
           if is_rule top && negb (String.eqb caption EmptyString)
              && String.eqb bottom separator
           then 1 else 0
       | _ => 0
       end) + count_banners rest
  end.

(** The five lines of the banner that [print_section] draws. *)
Definition banner_lines (t : string) : list string :=
  [ EmptyString; separator; "  " ++ t; separator; EmptyString ].

End Spec.

(** ** Facts about strings *)

Lemma append_assoc (a b c : string) : (a ++ b) ++ c = a ++ b ++ c.
Proof.
  induction a as [|x a IH]; simpl; [reflexivity | now rewrite IH].
Qed.

Lemma append_nil_r (a : string) : a ++ EmptyString = a.
Proof.
  induction a as [|x a IH]; simpl; [reflexivity | now rewrite IH].
Qed.

Lemma length_append (a b : string) :
  String.length (a ++ b) = String.length a + String.length b.
Proof.
  induction a as [|x a IH]; simpl; [reflexivity | now rewrite IH].
Qed.

Lemma substring_append_mid (a b c : string) :
  String.substring (String.length a) (String.length b) (a ++ b ++ c) = b.
Proof.
  induction a as [|x a IH]; simpl.
  - revert c. induction b as [|y b IHb]; intros c; simpl.
    + now destruct c.
    + now rewrite IHb.
  - exact IH.
Qed.

Lemma joined_app (xs ys : list string) :
  joined (xs ++ ys) = joined xs ++ joined ys.
Proof.
  induction xs as [|x xs IH]; simpl; [reflexivity|].
  now rewrite IH, !append_assoc.
Qed.

Lemma joined_banner_writes (t : string) : joined (banner_writes t) = banner t.
Proof.
  unfold banner, banner_writes, separator; cbn [joined].
  now rewrite !append_assoc, append_nil_r.
Qed.

Lemma joined_section_writes (s : section) :
  joined (section_writes s) = section_text s.
Proof.
  unfold section_writes, section_text.
  rewrite joined_app, joined_banner_writes; cbn [joined].
  now rewrite append_nil_r.
Qed.

Lemma joined_flat_map (ss : list section) :
  joined (flat_map section_writes ss) = cat (map section_text ss).
Proof.
  induction ss as [|s ss IH]; [reflexivity|].
  cbn [flat_map map cat]. now rewrite joined_app, joined_section_writes, IH.
Qed.

Lemma cat_app (xs ys : list string) : cat (xs ++ ys) = cat xs ++ cat ys.
Proof.
  induction xs as [|x xs IH]; simpl; [reflexivity|].
  now rewrite IH, append_assoc.
Qed.

(** An element of a concatenation sits between what comes before it and
    what comes after it. *)
Lemma cat_map_split {A} (f : A -> string) (x : A) (xs : list A) :
  In x xs ->
  exists before after,
    xs = (before ++ x :: after)%list /\
    cat (map f xs) = cat (map f before) ++ f x ++ cat (map f after).
Proof.
  intros Hin. destruct (in_split x xs Hin) as (before & after & ->).
  exists before, after. split; [reflexivity|].
  now rewrite map_app, cat_app.
Qed.

(** The lines of a line-feed-free text followed by a line feed. *)
Lemma lines_from_line (l : string) :
  has_newline l = false ->
  forall cur rest,
    lines_from cur (l ++ nl ++ rest) = (cur ++ l) :: lines_from EmptyString rest.
Proof.
  induction l as [|c l IH]; intros Hl cur rest.
  - simpl. now rewrite append_nil_r.
  - simpl in Hl. apply orb_false_iff in Hl as [Hc Hl].
    cbn [append lines_from]. rewrite Hc, (IH Hl).
    now rewrite append_assoc.
Qed.

(** ** Facts about the stream *)

Section Stream.

Variable writable : nat -> bool.

Lemma first_refused_none (start n : nat) :
  first_refused writable start n = None <->
  (forall k, k < n -> writable (start + k) = true).
Proof.
  revert start; induction n as [|n IH]; intros start; simpl.
  - split; [intros _ k Hk; lia | reflexivity].
  - destruct (writable start) eqn:Hw.
    + destruct (first_refused writable (S start) n) eqn:Hf; simpl.
      * split; [discriminate|]. intros H.
        assert (Hn : first_refused writable (S start) n = None).
        { apply IH. intros k Hk. replace (S start + k) with (start + S k) by lia.
          apply H; lia. }
        congruence.
      * split; [|reflexivity]. intros _ k Hk.
        destruct k as [|k]; [now rewrite Nat.add_0_r|].
        replace (start + S k) with (S start + k) by lia.
        apply (proj1 (IH (S start)) Hf); lia.
    + split; [discriminate|]. intros H.
      specialize (H 0 (Nat.lt_0_succ n)). rewrite Nat.add_0_r in H. congruence.
Qed.

Lemma first_refused_some (start n k : nat) :
  first_refused writable start n = Some k <->
  (k < n /\ writable (start + k) = false
   /\ forall j, j < k -> writable (start + j) = true).
Proof.
  revert start k; induction n as [|n IH]; intros start k; simpl.
  - split; [discriminate | intros [H _]; lia].
  - destruct (writable start) eqn:Hw.
    + destruct k as [|k].
      * split.
        -- destruct (first_refused writable (S start) n); discriminate.
        -- intros (_ & H & _). rewrite Nat.add_0_r in H. congruence.
      * specialize (IH (S start) k).
        replace (start + S k) with (S start + k) by lia.
        split.
        -- intros H.
           destruct (first_refused writable (S start) n) as [k'|] eqn:Hf;
             [|discriminate].
           simpl in H. injection H as ->.
           destruct (proj1 IH eq_refl) as (Hk & Hr & Hb).
           split; [lia|]. split; [exact Hr|].
           intros [|j] Hj; [now rewrite Nat.add_0_r|].
           replace (start + S j) with (S start + j) by lia. apply Hb; lia.
        -- intros (Hk & Hr & Hb).
           rewrite (proj2 IH); [reflexivity|].
           split; [lia|]. split; [exact Hr|].
           intros j Hj. replace (S start + j) with (start + S j) by lia.
           apply Hb; lia.
    + split.
      * intros H. injection H as <-.
        split; [lia|]. split; [now rewrite Nat.add_0_r | intros j Hj; lia].
      * intros (_ & Hr & Hb).
        destruct k as [|k]; [reflexivity|].
        specialize (Hb 0 (Nat.lt_0_succ k)). rewrite Nat.add_0_r in Hb. congruence.
Qed.

(** The outcome of a row of [print] calls, for every stream: all of
    them are accepted, or the first refused one raises and nothing is
    attempted after it. *)
Lemma print_all_run (cs : list string) (st : stdout) :
  print_all writable cs st =
  match first_refused writable (attempts st) (length cs) with
  | None => (Ok None_, advance st (length cs) (joined cs))
  | Some k =>
      (Raise BrokenPipeError, advance st (S k) (joined (firstn k cs)))
  end.
Proof.
  revert st; induction cs as [|c cs IH]; intros [n t]; simpl.
  - unfold ret, advance; simpl. now rewrite Nat.add_0_r, append_nil_r.
  - unfold bind, print at 1; simpl.
    destruct (writable n) eqn:Hw.
    + rewrite IH; simpl.
      destruct (first_refused writable (S n) (length cs)) as [k|]; simpl;
        unfold advance; simpl; rewrite !append_assoc;
        do 2 f_equal; f_equal; lia.
    + unfold advance; simpl. now rewrite append_nil_r, Nat.add_1_r.
Qed.

(** *** Programs that only print *)

Lemma emits_ret {A} (a : A) : emits writable (ret a) [] a.
Proof. intros st; reflexivity. Qed.

Lemma emits_print (s : string) : emits writable (print writable s) [s] None_.
Proof.
  intros st; simpl. unfold bind, print, ret.
  now destruct (writable (attempts st)).
Qed.

Lemma print_all_app (xs ys : list string) (st : stdout) :
  print_all writable (xs ++ ys) st
  = bind (print_all writable xs) (fun _ => print_all writable ys) st.
Proof.
  revert st; induction xs as [|x xs IH]; intros st; simpl.
  - reflexivity.
  - unfold bind in *.
    destruct (print writable x st) as [[u|e] st']; [apply IH | reflexivity].
Qed.

Lemma emits_bind {A B} (m : io A) (k : A -> io B) xs ys (a : A) (b : B) :
  emits writable m xs a -> emits writable (k a) ys b -> emits writable (bind m k) (xs ++ ys) b.
Proof.
  intros Hm Hk st. unfold bind at 1. rewrite Hm.
  unfold bind. rewrite print_all_app. unfold bind.
  destruct (print_all writable xs st) as [[u|e] st']; [|reflexivity].
  unfold ret. rewrite Hk. reflexivity.
Qed.

Lemma emits_print_section (t : string) :
  emits writable (print_section writable t) (banner_writes t) None_.
Proof.
  unfold print_section.
  change (banner_writes t)
    with ([(nl ++ str_mul "=" 70)%string] ++ [("  " ++ t)%string]
          ++ [(str_mul "=" 70 ++ nl)%string])%list.
  repeat (eapply emits_bind; [apply emits_print|]).
  apply emits_print.
Qed.

Lemma emits_printSection (s : section) :
  emits writable (Spec.printSection writable s) (section_writes s) None_.
Proof.
  unfold Spec.printSection, section_writes.
  eapply emits_bind; [apply emits_print_section | apply emits_print].
Qed.

Lemma emits_print_all (cs : list string) :
  emits writable (print_all writable cs) cs None_.
Proof.
  intros st. unfold bind.
  destruct (print_all writable cs st) as [[[]|e] st']; reflexivity.
Qed.

Lemma emits_for_each (ss : list section) :
  emits writable (Spec.for_each writable ss) (flat_map section_writes ss) None_.
Proof.
  induction ss as [|s ss IH]; cbn [Spec.for_each flat_map].
  - apply emits_ret.
  - eapply emits_bind; [apply emits_printSection | exact IH].
Qed.

Lemma emits_run_spec : emits writable (Spec.run writable) main_writes 0%Z.
Proof.
  unfold Spec.run, main_writes.
  eapply emits_bind; [apply emits_print_all|].
  eapply emits_bind; [apply emits_for_each|].
  rewrite <- (app_nil_r (section_writes summary_section)).
  eapply emits_bind; [apply emits_printSection | apply emits_ret].
Qed.

(** The outcome of a program that only prints. *)
Lemma emits_run {A} (m : io A) cs (a : A) (st : stdout) :
  emits writable m cs a ->
  m st =
  match first_refused writable (attempts st) (length cs) with
  | None => (Ok a, advance st (length cs) (joined cs))
  | Some k =>
      (Raise BrokenPipeError, advance st (S k) (joined (firstn k cs)))
  end.
Proof.
  intros H. rewrite H. unfold bind. rewrite print_all_run.
  now destruct (first_refused writable (attempts st) (length cs)).
Qed.

End Stream.

(** ** Facts about the script *)

Lemma emits_cast {A} writable (m : io A) cs cs' (a : A) :
  emits writable m cs a -> cs = cs' -> emits writable m cs' a.
Proof. now intros H <-. Qed.

(** Walks through a body of [print] and [print_section] calls. *)
Ltac emits_walk :=
  lazymatch goal with
  | |- emits _ (bind _ _) _ _ =>
      eapply emits_bind; [emits_walk | cbv beta; emits_walk]
  | |- emits _ (print _ _) _ _ => apply emits_print
  | |- emits _ (print_section _ _) _ _ => apply emits_print_section
  | |- emits _ (ret _) _ _ => apply emits_ret
  end.

(** Each [demo_*] function is printSection at its title and body. *)
Lemma demos_refine (writable : nat -> bool) :
  Forall2 (fun d s => d = Spec.printSection writable s)
    (demos writable) registered_sections.
Proof. repeat constructor. Qed.

(** [main] is the row of its [print] calls, then [return 0]. *)
Lemma emits_main (writable : nat -> bool) :
  emits writable (main writable) main_writes 0%Z.
Proof.
  eapply emits_cast.
  - unfold main, demo_supported_tools, demo_docker_usage, demo_configuration,
      demo_workflow, demo_python_api, demo_supported_models, demo_storage,
      demo_quick_start.
    emits_walk.
  - reflexivity.
Qed.

Lemma tutorial_text_sections :
  tutorial_text
  = title_banner ++ cat (map section_text registered_sections)
    ++ section_text summary_section.
Proof.
  unfold tutorial_text, main_writes.
  rewrite !joined_app, joined_flat_map, joined_section_writes.
  f_equal; unfold title_banner, title_writes, separator; cbn [joined];
    now rewrite !append_assoc, append_nil_r.
Qed.

(** [main] does what the specification's run() does, on every stream. *)
Lemma main_refines_run (writable : nat -> bool) (st : stdout) :
  main writable st = Spec.run writable st.
Proof.
  now rewrite (emits_main writable st), (emits_run_spec writable st).
Qed.

(** What [sys.exit(main())] makes of the outcome of [main]. *)
Lemma script_of_main (writable : nat -> bool) (st : stdout) :
  script writable st =
  match main writable st with
  | (Ok code, st') => (Raise (SystemExit code), st')
  | (Raise e, st') => (Raise e, st')
  end.
Proof. reflexivity. Qed.

(** A complete run on a stream that accepts every write. *)
Lemma main_ok (writable : nat -> bool) (st : stdout) :
  accepts writable st (length main_writes) ->
  main writable st = (Ok 0%Z, advance st (length main_writes) tutorial_text).
Proof.
  intros Hacc. rewrite (emits_run writable _ _ _ st (emits_main writable)).
  now rewrite (proj2 (first_refused_none writable (attempts st) _) Hacc).
Qed.

(** A run on a stream that refuses a write. *)
Lemma main_broken (writable : nat -> bool) (st : stdout) (k : nat) :
  first_refused writable (attempts st) (length main_writes) = Some k ->
  main writable st
  = (Raise BrokenPipeError, advance st (S k) (joined (firstn k main_writes))).
Proof.
  intros Hk. now rewrite (emits_run writable _ _ _ st (emits_main writable)), Hk.
Qed.

Lemma first_refused_ext (w1 w2 : nat -> bool) (s1 s2 n : nat) :
  (forall k, k < n -> w1 (s1 + k) = w2 (s2 + k)) ->
  first_refused w1 s1 n = first_refused w2 s2 n.
Proof.
  revert s1 s2; induction n as [|n IH]; intros s1 s2 H; simpl; [reflexivity|].
  pose proof (H 0 (Nat.lt_0_succ n)) as H0. rewrite !Nat.add_0_r in H0.
  rewrite H0. destruct (w2 s2); [|reflexivity].
  f_equal. apply IH. intros k Hk.
  replace (S s1 + k) with (s1 + S k) by lia.
  replace (S s2 + k) with (s2 + S k) by lia. apply H; lia.
Qed.

Lemma accepts_weaken (writable : nat -> bool) (st : stdout) (n m : nat) :
  m <= n -> accepts writable st n -> accepts writable st m.
Proof. intros Hle H k Hk. apply H; lia. Qed.

Lemma accepts_advance (writable : nat -> bool) (st : stdout) (n m : nat) t :
  accepts writable st (n + m) -> accepts writable (advance st n t) m.
Proof.
  intros H k Hk; simpl. rewrite <- Nat.add_assoc. apply H; lia.
Qed.

(** ** Facts about lines *)

Lemma length_lines_from (t : string) (cur rest : string) :
  length (lines_from cur (t ++ nl ++ rest))
  = count_nl t + S (length (lines_from EmptyString rest)).
Proof.
  revert cur; induction t as [|c t IH]; intros cur.
  - reflexivity.
  - cbn [append lines_from count_nl].
    destruct (Ascii.eqb c (ascii_of_nat 10)); cbn [length]; rewrite IH; lia.
Qed.

Lemma has_newline_count_nl (t : string) :
  has_newline t = false <-> count_nl t = 0.
Proof.
  induction t as [|c t IH]; simpl; [tauto|].
  destruct (Ascii.eqb c (ascii_of_nat 10)); simpl; [split; [discriminate | lia]|].
  exact IH.
Qed.

Lemma has_newline_separator : has_newline separator = false.
Proof. reflexivity. Qed.

(** The banner of a title without line feed is five lines. *)
Lemma lines_banner (t : string) :
  has_newline t = false -> lines (banner t) = Spec.banner_lines t.
Proof.
  intros Ht. unfold lines, banner, Spec.banner_lines.
  change (nl ++ separator ++ nl ++ "  " ++ t ++ nl ++ separator ++ nl ++ nl)
    with (EmptyString ++ nl ++ separator ++ nl ++ ("  " ++ t) ++ nl
          ++ separator ++ nl ++ EmptyString ++ nl ++ EmptyString).
  rewrite (lines_from_line EmptyString eq_refl).
  rewrite (lines_from_line separator has_newline_separator).
  rewrite (lines_from_line ("  " ++ t) Ht).
  rewrite (lines_from_line separator has_newline_separator).
  rewrite (lines_from_line EmptyString eq_refl).
  reflexivity.
Qed.

(** The banner that [print_section] draws counts as one banner. *)
Lemma count_banners_banner (t : string) :
  has_newline t = false -> Spec.count_banners (lines (banner t)) = 1.
Proof.
  intros Ht. rewrite (lines_banner t Ht).
  unfold Spec.banner_lines. cbn [Spec.count_banners].
  replace (Spec.is_rule EmptyString) with false by reflexivity.
  replace (Spec.is_rule separator) with true by reflexivity.
  replace (String.eqb separator separator) with true by reflexivity.
  replace (String.eqb EmptyString separator) with false by reflexivity.
  replace (String.eqb ("  " ++ t) EmptyString) with false by reflexivity.
  cbn [andb negb]. rewrite andb_false_r. reflexivity.
Qed.

(** In general the banner has one more line for every line feed of the
    title. *)
Lemma length_lines_banner (t : string) :
  length (lines (banner t)) = 5 + count_nl t.
Proof.
  unfold lines, banner.
  change (nl ++ separator ++ nl ++ "  " ++ t ++ nl ++ separator ++ nl ++ nl)
    with (EmptyString ++ nl ++ separator ++ nl ++ ("  " ++ t) ++ nl
          ++ separator ++ nl ++ EmptyString ++ nl ++ EmptyString).
  rewrite !length_lines_from. simpl. lia.
Qed.

Lemma accepts_always (st : stdout) (n : nat) : accepts always_writable st n.
Proof. intros k _. reflexivity. Qed.

Lemma length_section_writes (s : section) : length (section_writes s) = 4.
Proof. reflexivity. Qed.

(** One section on a stream that accepts its four writes. *)
Lemma printSection_ok (writable : nat -> bool) (s : section) (st : stdout) :
  accepts writable st 4 ->
  Spec.printSection writable s st = (Ok None_, advance st 4 (section_text s)).
Proof.
  intros Hacc. rewrite (emits_run writable _ _ _ st (emits_printSection writable s)).
  rewrite length_section_writes, joined_section_writes.
  now rewrite (proj2 (first_refused_none writable (attempts st) 4) Hacc).
Qed.

(** One banner on a stream that accepts its three writes. *)
Lemma print_section_ok (writable : nat -> bool) (t : string) (st : stdout) :
  accepts writable st 3 ->
  print_section writable t st = (Ok None_, advance st 3 (banner t)).
Proof.
  intros Hacc. rewrite (emits_run writable _ _ _ st (emits_print_section writable t)).
  rewrite joined_banner_writes. cbn [banner_writes length].
  now rewrite (proj2 (first_refused_none writable (attempts st) 3) Hacc).
Qed.

(** ** The properties of the specification *)

(** C1: the output of a run presents every registered section exactly
    once and in declaration order: [main] goes through the sections as
    run() of the specification does, and its output is the leading title,
    then, for the sections in order, the banner of the section's title
    immediately followed by the section's body, then the summary; the
    banner and the body of each section occur once in the whole output,
    and no two sections share a title. *)
Theorem C1_sections_once_in_order (writable : nat -> bool) (st : stdout) :
  accepts writable st (length main_writes) ->
  main writable st = Spec.run writable st /\
  exists out,
    text (snd (main writable st)) = text st ++ out /\
    out = title_banner
          ++ cat (map (fun s => banner (title s) ++ body s ++ nl)
                    registered_sections)
          ++ section_text summary_section /\
    Forall (fun s => count (banner (title s)) out = 1 /\ count (body s) out = 1)
      registered_sections /\
    NoDup (map title registered_sections).
Proof.
  intros Hacc. split; [apply main_refines_run|]. exists tutorial_text.
  rewrite (main_ok _ _ Hacc). split; [reflexivity|].
  split; [exact tutorial_text_sections|]. split.
  - apply Forall_forall. intros s Hs.
    unfold registered_sections in Hs. cbn [In] in Hs.
    repeat (destruct Hs as [<- | Hs]; [split; vm_compute; reflexivity|]).
    contradiction.
  - unfold registered_sections; cbn [map title].
    repeat (constructor; [cbn [In]; intuition discriminate|]).
    constructor.
Qed.

Lemma C1_sections_once_in_order_witness :
  accepts always_writable fresh (length main_writes) /\
  main always_writable fresh = Spec.run always_writable fresh /\
  exists out,
    text (snd (main always_writable fresh)) = text fresh ++ out /\
    out = title_banner
          ++ cat (map (fun s => banner (title s) ++ body s ++ nl)
                    registered_sections)
          ++ section_text summary_section /\
    Forall (fun s => count (banner (title s)) out = 1 /\ count (body s) out = 1)
      registered_sections /\
    NoDup (map title registered_sections).
Proof.
  split.
  - intros k _. reflexivity.
  - apply (C1_sections_once_in_order always_writable fresh).
    intros k _. reflexivity.
Defined.

(** C2: a run prints as many banners as there are registered sections,
    plus two: the leading title is one banner, and every section and the
    summary carry one banner each. *)
Theorem C2_banner_count (writable : nat -> bool) :
  accepts writable fresh (length main_writes) ->
  Spec.count_banners (lines (text (snd (main writable fresh))))
  = length registered_sections + 2 /\
  Spec.count_banners (lines title_banner) = 1 /\
  Forall (fun s => Spec.count_banners (lines (section_text s)) = 1)
    (registered_sections ++ [summary_section]).
Proof.
  intros Hacc. rewrite (main_ok _ _ Hacc).
  split; [vm_compute; reflexivity|]. split; [vm_compute; reflexivity|].
  apply Forall_forall. intros s Hs.
  unfold registered_sections in Hs. cbn [In app] in Hs.
  repeat (destruct Hs as [<- | Hs]; [vm_compute; reflexivity|]).
  contradiction.
Qed.

Lemma C2_banner_count_witness :
  accepts always_writable fresh (length main_writes) /\
  Spec.count_banners (lines (text (snd (main always_writable fresh))))
  = length registered_sections + 2 /\
  Spec.count_banners (lines title_banner) = 1 /\
  Forall (fun s => Spec.count_banners (lines (section_text s)) = 1)
    (registered_sections ++ [summary_section]).
Proof.
  split.
  - intros k _. reflexivity.
  - apply (C2_banner_count always_writable). intros k _. reflexivity.
Defined.

(** C3: in the output of the program started without arguments, the first
    line that is not blank contains the text MedRAX Tutorial POC, and the
    heading Supported Medical Analysis Tools occurs before the heading
    Docker Usage Examples. *)
Theorem C3_title_line_and_heading_order (writable : nat -> bool) :
  accepts writable fresh (length main_writes) ->
  let out := text (snd (script writable fresh)) in
  (exists l,
      List.find (fun l => negb (is_blank l)) (lines out) = Some l /\
      contains "MedRAX Tutorial POC" l = true) /\
  (exists i j,
      find "Supported Medical Analysis Tools" out = Some i /\
      find "Docker Usage Examples" out = Some j /\
      i < j).
Proof.
  intros Hacc out. subst out.
  rewrite script_of_main, (main_ok _ _ Hacc). cbn [snd advance text fresh].
  split.
  - eexists. split; vm_compute; reflexivity.
  - exists 288, 1392. repeat split; [vm_compute; reflexivity ..| lia].
Qed.

Lemma C3_title_line_and_heading_order_witness :
  accepts always_writable fresh (length main_writes) /\
  let out := text (snd (script always_writable fresh)) in
  (exists l,
      List.find (fun l => negb (is_blank l)) (lines out) = Some l /\
      contains "MedRAX Tutorial POC" l = true) /\
  (exists i j,
      find "Supported Medical Analysis Tools" out = Some i /\
      find "Docker Usage Examples" out = Some j /\
      i < j).
Proof.
  split.
  - intros k _. reflexivity.
  - apply (C3_title_line_and_heading_order always_writable).
    intros k _. reflexivity.
Defined.

(** C4, as stated, fails: for a title that holds a line feed the banner
    is not the five lines blank, separator, indented title, separator,
    blank. *)
Lemma C4_multiline_title_counterexample :
  ~ (forall title : string,
        lines (text (snd (print_section always_writable title fresh)))
        = [ EmptyString; str_mul "=" 70; "  " ++ title; str_mul "=" 70;
            EmptyString ]).
Proof.
  intros H. specialize (H ("Chest" ++ nl ++ "X-ray")).
  vm_compute in H. discriminate H.
Qed.

(** C4, amended: for every title, [print_section] writes a line feed, 70
    equals signs, a line feed, two spaces, the title, a line feed, 70
    equals signs and two line feeds; for every title without a line feed
    these are, in order, a blank line, a separator line of 70 equals
    signs, the title line indented by two spaces, another separator line
    of 70 equals signs and a blank line. *)
Theorem C4_banner_lines (writable : nat -> bool) (st : stdout) (title : string) :
  accepts writable st 3 ->
  text (snd (print_section writable title st))
  = text st ++ nl ++ str_mul "=" 70 ++ nl ++ "  " ++ title ++ nl
    ++ str_mul "=" 70 ++ nl ++ nl /\
  (has_newline title = false ->
   lines (nl ++ str_mul "=" 70 ++ nl ++ "  " ++ title ++ nl
          ++ str_mul "=" 70 ++ nl ++ nl)
   = [ EmptyString; str_mul "=" 70; "  " ++ title; str_mul "=" 70;
       EmptyString ]) /\
  String.length (str_mul "=" 70) = 70.
Proof.
  intros Hacc. rewrite (print_section_ok writable title st Hacc).
  split; [reflexivity|]. split; [|reflexivity].
  intros Ht. exact (lines_banner title Ht).
Qed.

Lemma C4_banner_lines_witness :
  accepts always_writable fresh 3 /\
  has_newline "Docker Usage Examples" = false /\
  text (snd (print_section always_writable "Docker Usage Examples" fresh))
  = text fresh ++ nl ++ str_mul "=" 70 ++ nl ++ "  " ++ "Docker Usage Examples"
    ++ nl ++ str_mul "=" 70 ++ nl ++ nl /\
  lines (nl ++ str_mul "=" 70 ++ nl ++ "  " ++ "Docker Usage Examples" ++ nl
         ++ str_mul "=" 70 ++ nl ++ nl)
  = [ EmptyString; str_mul "=" 70; "  " ++ "Docker Usage Examples";
      str_mul "=" 70; EmptyString ] /\
  String.length (str_mul "=" 70) = 70.
Proof.
  split; [intros k _; reflexivity|]. split; [reflexivity|].
  destruct (C4_banner_lines always_writable fresh "Docker Usage Examples")
    as (Htext & Hlines & Hwidth).
  - intros k _. reflexivity.
  - split; [exact Htext|]. split; [exact (Hlines eq_refl) | exact Hwidth].
Defined.

(** C5: every registered section's function writes the banner of its
    title and then the bytes of its body, unchanged and in one piece,
    ended by the line feed of [print]; in the output of a whole run the
    body of every section, and of the summary, stands in one piece right
    after its banner. *)
Theorem C5_body_verbatim (writable : nat -> bool) (st : stdout) :
  accepts writable st (length main_writes) ->
  Forall2
    (fun d s =>
       exists st',
         d st = (Ok None_, st') /\
         text st' = text st ++ banner (title s) ++ body s ++ nl /\
         String.substring (String.length (text st ++ banner (title s)))
           (String.length (body s)) (text st') = body s)
    (demos writable) registered_sections /\
  Forall
    (fun s =>
       exists before after,
         text (snd (main writable st))
         = (before ++ banner (title s)) ++ body s ++ nl ++ after /\
         String.substring (String.length (before ++ banner (title s)))
           (String.length (body s)) (text (snd (main writable st))) = body s)
    (registered_sections ++ [summary_section]).
Proof.
  intros Hacc. split.
  - eapply Forall2_impl; [|exact (demos_refine writable)].
    intros d s ->. eexists. split.
    + apply printSection_ok.
      apply (accepts_weaken writable st (length main_writes)); [simpl; lia | exact Hacc].
    + cbn [advance text]. unfold section_text. split; [reflexivity|].
      rewrite <- (append_assoc (text st)).
      apply substring_append_mid.
  - rewrite (main_ok _ _ Hacc). cbn [snd advance text].
    rewrite tutorial_text_sections.
    apply Forall_forall. intros s Hs.
    apply in_app_or in Hs as [Hs | [<- | []]].
    + destruct (cat_map_split section_text s registered_sections Hs)
        as (l1 & l2 & _ & ->).
      exists (text st ++ title_banner ++ cat (map section_text l1)),
        (cat (map section_text l2) ++ section_text summary_section).
      assert (E : text st ++ title_banner
                  ++ (cat (map section_text l1) ++ section_text s
                      ++ cat (map section_text l2))
                  ++ section_text summary_section
                  = ((text st ++ title_banner ++ cat (map section_text l1))
                     ++ banner (title s))
                    ++ body s ++ nl ++ cat (map section_text l2)
                    ++ section_text summary_section).
      { unfold section_text. now rewrite !append_assoc. }
      rewrite E. split; [reflexivity | apply substring_append_mid].
    + exists (text st ++ title_banner ++ cat (map section_text registered_sections)),
        EmptyString.
      assert (E : text st ++ title_banner
                  ++ cat (map section_text registered_sections)
                  ++ section_text summary_section
                  = ((text st ++ title_banner
                      ++ cat (map section_text registered_sections))
                     ++ banner (title summary_section))
                    ++ body summary_section ++ nl ++ EmptyString).
      { unfold section_text. now rewrite !append_assoc, append_nil_r. }
      rewrite E. split; [reflexivity | apply substring_append_mid].
Qed.

Lemma C5_body_verbatim_witness :
  accepts always_writable fresh (length main_writes) /\
  Forall2
    (fun d s =>
       exists st',
         d fresh = (Ok None_, st') /\
         text st' = text fresh ++ banner (title s) ++ body s ++ nl /\
         String.substring (String.length (text fresh ++ banner (title s)))
           (String.length (body s)) (text st') = body s)
    (demos always_writable) registered_sections /\
  Forall
    (fun s =>
       exists before after,
         text (snd (main always_writable fresh))
         = (before ++ banner (title s)) ++ body s ++ nl ++ after /\
         String.substring (String.length (before ++ banner (title s)))
           (String.length (body s)) (text (snd (main always_writable fresh)))
         = body s)
    (registered_sections ++ [summary_section]).
Proof.
  split.
  - intros k _. reflexivity.
  - apply (C5_body_verbatim always_writable fresh). intros k _. reflexivity.
Defined.

(** C6: on a stream that accepts the writes of a run, [main] returns 0
    whatever the stream held before, and the process exits with
    status 0. *)
Theorem C6_exit_status_zero (writable : nat -> bool) (st : stdout) :
  accepts writable st (length main_writes) ->
  fst (main writable st) = Ok 0%Z /\
  fst (script writable st) = Raise (SystemExit 0) /\
  exit_status (fst (script writable st)) = 0%Z.
Proof.
  intros Hacc. rewrite script_of_main, (main_ok _ _ Hacc). repeat split.
Qed.

Lemma C6_exit_status_zero_witness :
  accepts always_writable fresh (length main_writes) /\
  fst (main always_writable fresh) = Ok 0%Z /\
  fst (script always_writable fresh) = Raise (SystemExit 0) /\
  exit_status (fst (script always_writable fresh)) = 0%Z.
Proof.
  split.
  - intros k _. reflexivity.
  - apply (C6_exit_status_zero always_writable fresh). intros k _. reflexivity.
Defined.

(** The outcome of the program on any stream. *)
Lemma script_run (writable : nat -> bool) (st : stdout) :
  script writable st =
  match first_refused writable (attempts st) (length main_writes) with
  | None =>
      (Raise (SystemExit 0), advance st (length main_writes) tutorial_text)
  | Some k =>
      (Raise BrokenPipeError, advance st (S k) (joined (firstn k main_writes)))
  end.
Proof.
  rewrite script_of_main, (emits_run writable _ _ _ st (emits_main writable)).
  now destruct (first_refused writable (attempts st) (length main_writes)).
Qed.

(** C7: two runs in the same environment, that is, on streams that hold
    the same text and accept or refuse the writes of the run alike, leave
    the same bytes on the stream and end alike. *)
Theorem C7_deterministic (w1 w2 : nat -> bool) (st1 st2 : stdout) :
  text st1 = text st2 ->
  (forall k, k < length main_writes ->
             w1 (attempts st1 + k) = w2 (attempts st2 + k)) ->
  text (snd (script w1 st1)) = text (snd (script w2 st2)) /\
  fst (script w1 st1) = fst (script w2 st2).
Proof.
  intros Htext Henv. rewrite !script_run.
  rewrite (first_refused_ext w1 w2 (attempts st1) (attempts st2) _ Henv).
  destruct (first_refused w2 (attempts st2) (length main_writes));
    cbn [fst snd advance text]; now rewrite Htext.
Qed.

Lemma C7_deterministic_witness :
  text fresh = text {| attempts := 7; text := EmptyString |} /\
  (forall k, k < length main_writes ->
             always_writable (attempts fresh + k)
             = breaks_after 50 (7 + k)) /\
  text (snd (script always_writable fresh))
  = text (snd (script (breaks_after 50) {| attempts := 7; text := EmptyString |})) /\
  fst (script always_writable fresh)
  = fst (script (breaks_after 50) {| attempts := 7; text := EmptyString |}).
Proof.
  assert (Henv : forall k, k < length main_writes ->
             always_writable (attempts fresh + k) = breaks_after 50 (7 + k)).
  { intros k Hk. change (length main_writes) with 39 in Hk.
    unfold always_writable, breaks_after. symmetry. apply Nat.ltb_lt. lia. }
  split; [reflexivity|]. split; [exact Henv|].
  apply (C7_deterministic always_writable (breaks_after 50) fresh
           {| attempts := 7; text := EmptyString |} eq_refl Henv).
Defined.

(** C8: two calls of [main] in one process, on a stream that accepts the
    writes of both, both return 0 and leave two copies of the complete
    output, one after the other, each equal to the output of a single
    run. *)
Theorem C8_twice_two_copies (writable : nat -> bool) (st : stdout) :
  accepts writable st (length main_writes + length main_writes) ->
  exists out,
    main writable st = (Ok 0%Z, advance st (length main_writes) out) /\
    run_twice writable st
    = (Ok (0%Z, 0%Z),
       advance st (length main_writes + length main_writes) (out ++ out)) /\
    out = tutorial_text.
Proof.
  intros Hacc. exists tutorial_text.
  assert (H1 : accepts writable st (length main_writes)).
  { apply (accepts_weaken writable st (length main_writes + length main_writes));
      [lia | exact Hacc]. }
  split; [exact (main_ok _ _ H1)|]. split; [|reflexivity].
  unfold run_twice, bind. rewrite (main_ok _ _ H1).
  rewrite (main_ok _ _ (accepts_advance _ _ _ _ tutorial_text Hacc)).
  unfold ret, advance; cbn [attempts text].
  now rewrite append_assoc, Nat.add_assoc.
Qed.

Lemma C8_twice_two_copies_witness :
  accepts always_writable fresh (length main_writes + length main_writes) /\
  exists out,
    main always_writable fresh
    = (Ok 0%Z, advance fresh (length main_writes) out) /\
    run_twice always_writable fresh
    = (Ok (0%Z, 0%Z),
       advance fresh (length main_writes + length main_writes) (out ++ out)) /\
    out = tutorial_text.
Proof.
  split.
  - intros k _. reflexivity.
  - apply (C8_twice_two_copies always_writable fresh). intros k _. reflexivity.
Defined.

(** C10, as stated, fails: [print_section] succeeds on a title that holds
    a line feed, but what it emits is six lines, not the five-line
    banner. *)
Lemma C10_six_line_banner_counterexample :
  let title := "Quick Start" ++ nl ++ "Summary" in
  let run := print_section always_writable title fresh in
  fst run = Ok None_ /\
  length (lines (text (snd run))) = 6 /\
  lines (text (snd run)) <> Spec.banner_lines title.
Proof.
  split; [reflexivity|]. split; [reflexivity|].
  vm_compute. discriminate.
Qed.

(** C10, amended: [print_section] is total over all title strings: for
    every title, the empty one included, it succeeds on a stream that
    accepts its three writes, with no precondition on the title; it emits
    five lines and one more for every line feed of the title, so the
    five-line banner exactly for the titles without a line feed, the
    empty title among them. *)
Theorem C10_print_section_total (writable : nat -> bool) (st : stdout)
    (title : string) :
  accepts writable st 3 ->
  print_section writable title st = (Ok None_, advance st 3 (banner title)) /\
  length (lines (banner title)) = 5 + count_nl title /\
  (lines (banner title) = Spec.banner_lines title <-> has_newline title = false) /\
  lines (banner EmptyString) = Spec.banner_lines EmptyString.
Proof.
  intros Hacc. split; [exact (print_section_ok writable title st Hacc)|].
  split; [exact (length_lines_banner title)|]. split; [|reflexivity].
  split.
  - intros H. apply has_newline_count_nl.
    pose proof (length_lines_banner title) as Hlen.
    rewrite H in Hlen. cbn [Spec.banner_lines length] in Hlen. lia.
  - apply lines_banner.
Qed.

Lemma C10_print_section_total_witness :
  accepts always_writable fresh 3 /\
  print_section always_writable EmptyString fresh
  = (Ok None_, advance fresh 3 (banner EmptyString)) /\
  length (lines (banner EmptyString)) = 5 + count_nl EmptyString /\
  (lines (banner EmptyString) = Spec.banner_lines EmptyString
   <-> has_newline EmptyString = false) /\
  lines (banner EmptyString) = Spec.banner_lines EmptyString.
Proof.
  split; [intros k _; reflexivity|].
  apply (C10_print_section_total always_writable fresh EmptyString).
  intros k _. reflexivity.
Defined.

(** ** Further properties of the script

    The properties below hold on every stream, also on one that refuses
    writes in the middle of a call. *)

Lemma append_inv_head (a x y : string) : a ++ x = a ++ y -> x = y.
Proof.
  induction a as [|c a IH]; simpl; intros H; [exact H|].
  injection H as H. exact (IH H).
Qed.

Lemma append_inv_tail (x y a : string) : x ++ a = y ++ a -> x = y.
Proof.
  revert y; induction x as [|c x IH]; intros [|d y] H; simpl in H.
  - reflexivity.
  - exfalso. apply (f_equal String.length) in H.
    simpl in H. rewrite length_append in H. lia.
  - exfalso. apply (f_equal String.length) in H.
    simpl in H. rewrite length_append in H. lia.
  - injection H as -> H. now rewrite (IH y H).
Qed.

Lemma joined_firstn_skipn (k : nat) (cs : list string) :
  joined cs = joined (firstn k cs) ++ joined (skipn k cs).
Proof. now rewrite <- joined_app, firstn_skipn. Qed.

Lemma joined_skipn_nonempty (k : nat) (cs : list string) :
  k < length cs -> joined (skipn k cs) <> EmptyString.
Proof.
  revert k; induction cs as [|c cs IH]; intros k Hk; simpl in Hk; [lia|].
  destruct k as [|k].
  - cbn [skipn joined]. destruct c; discriminate.
  - cbn [skipn]. apply IH. lia.
Qed.

(** What a program that only prints leaves on a stream, whatever the
    stream does: the text that was there, then a piece of the text of its
    [print] calls that starts at the first call and stops before the
    first refused one. *)
Lemma emits_outcome {A} (writable : nat -> bool) (m : io A)
    (cs : list string) (a : A) (st : stdout) :
  emits writable m cs a ->
  exists written missing,
    text (snd (m st)) = text st ++ written /\
    joined cs = written ++ missing /\
    attempts (snd (m st)) <= attempts st + length cs /\
    ((fst (m st) = Ok a /\ missing = EmptyString) \/
     (fst (m st) = Raise BrokenPipeError /\ missing <> EmptyString)).
Proof.
  intros Hm. rewrite (emits_run writable m cs a st Hm).
  destruct (first_refused writable (attempts st) (length cs)) as [k|] eqn:Hk.
  - apply first_refused_some in Hk as (Hlt & _ & _).
    exists (joined (firstn k cs)), (joined (skipn k cs)).
    cbn [fst snd advance text attempts].
    split; [reflexivity|]. split; [apply joined_firstn_skipn|].
    split; [lia|]. right. split; [reflexivity|].
    now apply joined_skipn_nonempty.
  - exists (joined cs), EmptyString.
    cbn [fst snd advance text attempts].
    split; [reflexivity|]. split; [now rewrite append_nil_r|].
    split; [lia|]. left. split; reflexivity.
Qed.

(** X1: on every stream, [main] only appends to standard output, and
    what it appends is the complete text of the tutorial or a part of it
    that starts at its beginning; it returns 0 when and only when nothing
    of the text is missing, and otherwise raises the error of the [print]
    call that was refused, without a further call; it makes at most as
    many [print] calls as its body and the functions it calls hold. *)
Theorem X1_main_on_any_stream (writable : nat -> bool) (st : stdout) :
  exists written missing,
    text (snd (main writable st)) = text st ++ written /\
    tutorial_text = written ++ missing /\
    attempts (snd (main writable st)) <= attempts st + length main_writes /\
    ((fst (main writable st) = Ok 0%Z /\ missing = EmptyString) \/
     (fst (main writable st) = Raise BrokenPipeError /\
      missing <> EmptyString)).
Proof.
  exact (emits_outcome writable (main writable) main_writes 0%Z st
           (emits_main writable)).
Qed.

(** X2: for every title and on every stream, [print_section] only appends
    to standard output; it returns [None] when and only when the whole
    banner of the title was written, and otherwise raises the error of
    the refused write and leaves a part of the banner that starts at its
    beginning; it makes at most three write attempts. *)
Theorem X2_print_section_on_any_stream (writable : nat -> bool)
    (title : string) (st : stdout) :
  exists written missing,
    text (snd (print_section writable title st)) = text st ++ written /\
    nl ++ str_mul "=" 70 ++ nl ++ "  " ++ title ++ nl ++ str_mul "=" 70
      ++ nl ++ nl = written ++ missing /\
    attempts (snd (print_section writable title st)) <= attempts st + 3 /\
    ((fst (print_section writable title st) = Ok None_ /\
      missing = EmptyString) \/
     (fst (print_section writable title st) = Raise BrokenPipeError /\
      missing <> EmptyString)).
Proof.
  destruct (emits_outcome writable (print_section writable title)
              (banner_writes title) None_ st
              (emits_print_section writable title))
    as (written & missing & Htext & Hall & Hatt & Hend).
  exists written, missing. rewrite joined_banner_writes in Hall.
  split; [exact Htext|]. split; [exact Hall|]. split; [exact Hatt|].
  exact Hend.
Qed.

(** X3: the banner tells the title: two calls of [print_section] that
    leave the same text on the same stream were given the same title. *)
Theorem X3_banner_determines_title (writable : nat -> bool) (st : stdout)
    (title1 title2 : string) :
  accepts writable st 3 ->
  text (snd (print_section writable title1 st))
  = text (snd (print_section writable title2 st)) ->
  title1 = title2.
Proof.
  intros Hacc.
  rewrite (print_section_ok writable title1 st Hacc).
  rewrite (print_section_ok writable title2 st Hacc).
  cbn [snd advance text]. intros H.
  apply append_inv_head in H. unfold banner in H.
  assert (H' : (nl ++ separator ++ nl ++ "  ")
               ++ title1 ++ nl ++ separator ++ nl ++ nl
               = (nl ++ separator ++ nl ++ "  ")
                 ++ title2 ++ nl ++ separator ++ nl ++ nl).
  { rewrite !append_assoc. exact H. }
  apply append_inv_head in H'. exact (append_inv_tail _ _ _ H').
Qed.

Lemma X3_banner_determines_title_witness :
  accepts always_writable fresh 3 /\
  text (snd (print_section always_writable "Available Models" fresh))
  = text (snd (print_section always_writable "Available Models" fresh)) /\
  "Available Models" = "Available Models".
Proof.
  split; [intros k _; reflexivity|]. split; [reflexivity|].
  apply (X3_banner_determines_title always_writable fresh
           "Available Models" "Available Models").
  - intros k _. reflexivity.
  - reflexivity.
Defined.

(** X4: every [demo_*] function, on every stream, only appends to
    standard output; it returns [None] when and only when the banner of
    its title and its whole body were written, and otherwise raises the
    error of the refused write and leaves a part of that text that starts
    at its beginning; it makes at most four write attempts. *)
Theorem X4_demo_on_any_stream (writable : nat -> bool) (st : stdout) :
  Forall2
    (fun d s =>
       exists written missing,
         text (snd (d st)) = text st ++ written /\
         banner (title s) ++ body s ++ nl = written ++ missing /\
         attempts (snd (d st)) <= attempts st + 4 /\
         ((fst (d st) = Ok None_ /\ missing = EmptyString) \/
          (fst (d st) = Raise BrokenPipeError /\ missing <> EmptyString)))
    (demos writable) registered_sections.
Proof.
  eapply Forall2_impl; [|exact (demos_refine writable)].
  intros d s ->.
  destruct (emits_outcome writable (Spec.printSection writable s)
              (section_writes s) None_ st (emits_printSection writable s))
    as (written & missing & Htext & Hall & Hatt & Hend).
  exists written, missing. rewrite joined_section_writes in Hall.
  rewrite length_section_writes in Hatt.
  split; [exact Htext|]. split; [exact Hall|]. split; [exact Hatt|].
  exact Hend.
Qed.

Lemma firstn_le_split {A} (n k : nat) (l : list A) :
  n <= k -> exists r, firstn k l = (firstn n l ++ r)%list.
Proof.
  revert k l; induction n as [|n IH]; intros k l Hle.
  - exists (firstn k l). reflexivity.
  - destruct k as [|k]; [lia|]. destruct l as [|x l].
    + exists []. reflexivity.
    + destruct (IH k l) as (r & Hr); [lia|].
      exists r. cbn [firstn app]. now rewrite Hr.
Qed.

(** The writes of the first [j] sections are the first [4 * j] writes of
    the sections. *)
Lemma firstn_section_writes (j : nat) (ss : list section) (rest : list string) :
  j <= length ss ->
  firstn (4 * j) (flat_map section_writes ss ++ rest)
  = flat_map section_writes (firstn j ss).
Proof.
  revert j; induction ss as [|s ss IH]; intros j Hj; simpl in Hj.
  - replace j with 0 by lia. reflexivity.
  - destruct j as [|j]; [reflexivity|].
    replace (4 * S j) with (S (S (S (S (4 * j))))) by lia.
    cbn [flat_map section_writes banner_writes app firstn].
    now rewrite IH by lia.
Qed.

Lemma joined_title_writes : joined title_writes = title_banner.
Proof.
  unfold title_banner, title_writes, separator; cbn [joined].
  now rewrite !append_assoc, append_nil_r.
Qed.

(** X5: when the stream refuses a write in the middle of a run, the
    sections that [main] had finished are on standard output whole and in
    order: after the title block ([3] writes) and [j] sections ([4]
    writes each), what the stream holds starts with the text that was
    there, the title banner and the complete text of the first [j]
    sections. *)
Theorem X5_finished_sections_survive (writable : nat -> bool) (st : stdout)
    (k j : nat) :
  k < length main_writes ->
  writable (attempts st + k) = false ->
  (forall i, i < k -> writable (attempts st + i) = true) ->
  j <= length registered_sections ->
  3 + 4 * j <= k ->
  fst (main writable st) = Raise BrokenPipeError /\
  exists rest,
    text (snd (main writable st))
    = text st ++ title_banner
      ++ cat (map (fun s => banner (title s) ++ body s ++ nl)
                (firstn j registered_sections))
      ++ rest.
Proof.
  intros Hk Hrefused Hbefore Hj Hjk.
  assert (Hf : first_refused writable (attempts st) (length main_writes) = Some k).
  { apply first_refused_some. auto. }
  rewrite (main_broken writable st k Hf). split; [reflexivity|].
  destruct (firstn_le_split (3 + 4 * j) k main_writes Hjk) as (r & Hr).
  exists (joined r). cbn [snd advance text]. rewrite Hr, joined_app.
  assert (Hfirst : firstn (3 + 4 * j) main_writes
                   = (title_writes
                      ++ flat_map section_writes (firstn j registered_sections))%list).
  { unfold main_writes, title_writes.
    cbn [Nat.add app firstn]. now rewrite firstn_section_writes. }
  rewrite Hfirst, joined_app, joined_title_writes, joined_flat_map.
  now rewrite !append_assoc.
Qed.

Lemma X5_finished_sections_survive_witness :
  12 < length main_writes /\
  breaks_after 12 (attempts fresh + 12) = false /\
  (forall i, i < 12 -> breaks_after 12 (attempts fresh + i) = true) /\
  2 <= length registered_sections /\
  3 + 4 * 2 <= 12 /\
  fst (main (breaks_after 12) fresh) = Raise BrokenPipeError /\
  exists rest,
    text (snd (main (breaks_after 12) fresh))
    = text fresh ++ title_banner
      ++ cat (map (fun s => banner (title s) ++ body s ++ nl)
                (firstn 2 registered_sections))
      ++ rest.
Proof.
  assert (Hlt : 12 < length main_writes) by (vm_compute; lia).
  assert (Hb : forall i, i < 12 -> breaks_after 12 (attempts fresh + i) = true).
  { intros i Hi. apply Nat.ltb_lt. simpl. lia. }
  assert (Hj : 2 <= length registered_sections) by (vm_compute; lia).
  assert (Hjk : 3 + 4 * 2 <= 12) by lia.
  split; [exact Hlt|]. split; [reflexivity|]. split; [exact Hb|].
  split; [exact Hj|]. split; [exact Hjk|].
  exact (X5_finished_sections_survive (breaks_after 12) fresh 12 2
           Hlt eq_refl Hb Hj Hjk).
Defined.
